(** * uplink.converters.marshmallow_ : the marshmallow converter factory

    A shallow embedding of [uplink/converters/marshmallow_.py] and the
    properties of its documented contract.

    The module is glue code between the host HTTP client and the
    marshmallow schema library.  Everything it does is dynamic Python:
    [inspect.isclass], [issubclass], [isinstance], a zero-argument call
    of a class, two method calls and one attribute read.  The first part
    of this file is therefore a small model of the Python objects these
    operations look at; the second part embeds the source, definition by
    definition; the third part states and proves the properties. *)

From stdpp Require Import base option list strings gmap.

Open Scope string_scope.

(** ** Exceptions and results

    An exception value carries the linearised ancestry of its class (most
    derived class first), which is what an [except C:] clause inspects,
    and its message. *)

Record exn : Type := Exn { exn_mro : list string; exn_msg : string }.

Definition builtin_exn (name msg : string) : exn :=
  Exn [name; "Exception"; "BaseException"; "object"] msg.

Definition ValueError : string → exn := builtin_exn "ValueError".
Definition TypeError : string → exn := builtin_exn "TypeError".
Definition AttributeError : string → exn := builtin_exn "AttributeError".
Definition ImportError : string → exn := builtin_exn "ImportError".

(** [except cls:] matches an exception whose class is [cls] or derives
    from it. *)
Definition exn_isinstance (e : exn) (cls : string) : bool :=
  bool_decide (cls ∈ exn_mro e).

(** The outcome of evaluating a Python expression: a value, or a raised
    exception. *)
Inductive result (A : Type) : Type :=
| Ok (a : A)
| Raise (e : exn).
Arguments Ok {A} a.
Arguments Raise {A} e.

#[global] Instance result_ret : MRet result := @Ok.
#[global] Instance result_bind : MBind result := λ A B f r,
  match r with
  | Ok a => f a
  | Raise e => Raise e
  end.

(** [try: body / except cls: handler / else: orelse].  The handler runs
    for the exceptions of [body] that [cls] matches; [orelse] runs on the
    value of [body]; exceptions of the handler and of [orelse] are not
    caught. *)
Definition try_except_else {A B : Type}
    (body : result A) (cls : string) (handler : result B)
    (orelse : A → result B) : result B :=
  match body with
  | Ok a => orelse a
  | Raise e => if exn_isinstance e cls then handler else Raise e
  end.

(** ** Python objects

    Values are compared structurally; object identity is not modelled.
    [VClass c] is the class object named [c]; [VObject c attrs] is an
    instance of class [c] with instance dictionary [attrs]. *)

#[local] Unset Elimination Schemes.
Inductive value : Type :=
| VNone
| VBool (b : bool)
| VInt (n : Z)
| VStr (s : string)
| VList (l : list value)
| VDict (items : list (string * value))
| VClass (c : string)
| VObject (c : string) (attrs : list (string * value)).
#[local] Set Elimination Schemes.

(** A bound or unbound method.  A method receives [self] first. *)
Definition method : Type := value → list value → result value.

(** What the class table records for a class: its proper ancestors in
    method-resolution order ([object] is implicit); its [__new__], when
    the class does not leave it to [object]: given the positional
    arguments it returns any value at all, or raises; its [__init__]:
    given the positional arguments it sets attributes of the instance,
    or raises; and the methods the class itself defines. *)
Record class_def : Type := MkClass {
  cd_bases : list string;
  cd_new : option (list value → result value);
  cd_init : list value → result (list (string * value));
  cd_methods : gmap string method
}.

(** A class that does not define [__new__]. *)
Definition ClassDef (bases : list string)
    (init : list value → result (list (string * value)))
    (methods : gmap string method) : class_def :=
  MkClass bases None init methods.

(** The classes that exist in the interpreter, by name. *)
Abbreviation classes := (gmap string class_def).

(** [type(v).__name__]. *)
Definition type_of (v : value) : string :=
  match v with
  | VNone => "NoneType"
  | VBool _ => "bool"
  | VInt _ => "int"
  | VStr _ => "str"
  | VList _ => "list"
  | VDict _ => "dict"
  | VClass _ => "type"
  | VObject c _ => c
  end.

Section PythonObjects.
Context (T : classes).

Definition bases (c : string) : list string :=
  match T !! c with
  | Some d => cd_bases d
  | None => []
  end.

(** [c.__mro__]: the class, its ancestors, and [object] last.  A class
    the table does not list is a plain class deriving from [object]. *)
Definition mro (c : string) : list string := c :: bases c ++ ["object"].

(** [inspect.isclass(v)], which is [isinstance(v, type)]. *)
Definition isclass (v : value) : bool :=
  match v with
  | VClass _ => true
  | _ => false
  end.

(** [issubclass(v, cls)]: raises [TypeError] unless [v] is a class. *)
Definition issubclass (v : value) (cls : string) : result bool :=
  match v with
  | VClass c => Ok (bool_decide (cls ∈ mro c))
  | _ => Raise (TypeError "issubclass() arg 1 must be a class")
  end.

(** [isinstance(v, cls)]. *)
Definition isinstance (v : value) (cls : string) : bool :=
  bool_decide (cls ∈ mro (type_of v)).

Definition init (c : string) : list value → result (list (string * value)) :=
  match T !! c with
  | Some d => cd_init d
  | None => λ args,
      match args with
      | [] => Ok []
      | _ => Raise (TypeError (c +:+ "() takes no arguments"))
      end
  end.

(** [c.__new__], when it is not [object.__new__]. *)
Definition __new__ (c : string) : option (list value → result value) :=
  T !! c ≫= cd_new.

(** [v(args...)].  Only classes are callable in this model.  Calling a
    class is [type.__call__]: [__new__] makes the object,
    [object.__new__] making an empty instance of the class; when the
    object is an instance of the class called, the [__init__] of its
    class runs on it; the object is returned, whatever it is. *)
Definition call (v : value) (args : list value) : result value :=
  match v with
  | VClass c =>
      obj ← match __new__ c with
            | Some new => new args
            | None => Ok (VObject c [])
            end;
      if isinstance obj c then
        match obj with
        | VObject c' attrs0 =>
            attrs ← init c' args; Ok (VObject c' (attrs ++ attrs0))
        | _ => Ok obj
        end
      else Ok obj
  | _ => Raise (TypeError ("'" +:+ type_of v +:+ "' object is not callable"))
  end.

Definition no_attribute (v : value) (name : string) : exn :=
  AttributeError
    ("'" +:+ type_of v +:+ "' object has no attribute '" +:+ name +:+ "'").

Fixpoint lookup_method (cs : list string) (name : string) : option method :=
  match cs with
  | [] => None
  | c :: cs' =>
      match T !! c ≫= λ d, cd_methods d !! name with
      | Some m => Some m
      | None => lookup_method cs' name
      end
  end.

(** [v.name] where [name] is looked up as a method along the MRO of
    the class of [v]; the result is the method bound to [v]. *)
Definition getmethod (v : value) (name : string)
    : result (list value → result value) :=
  match lookup_method (mro (type_of v)) name with
  | Some m => Ok (m v)
  | None => Raise (no_attribute v name)
  end.

Fixpoint assoc (name : string) (attrs : list (string * value)) : option value :=
  match attrs with
  | [] => None
  | (k, x) :: attrs' => if String.eqb k name then Some x else assoc name attrs'
  end.

(** [v.name] where [name] is a data attribute of the instance. *)
Definition getattr (v : value) (name : string) : result value :=
  match v with
  | VObject _ attrs =>
      match assoc name attrs with
      | Some x => Ok x
      | None => Raise (no_attribute v name)
      end
  | _ => Raise (no_attribute v name)
  end.
End PythonObjects.

(** ** The source, [uplink/converters/marshmallow_.py] *)

(** The part of the [marshmallow] module namespace the adapter reads:
    the name of the base schema class, [marshmallow.Schema]. *)
Record library : Type := Library { Schema : string }.

Module MarshmallowConverter.

(** The class object.  Its one class attribute, [marshmallow], is the
    imported module, or [None]. *)
Record klass : Type := Klass { marshmallow : option library }.

(** The class body: [try: import marshmallow] /
    [except ImportError: marshmallow = None].  The argument is the
    outcome of the import statement in the running environment. *)
Definition class_body (import_marshmallow : result library) : result klass :=
  try_except_else import_marshmallow "ImportError"
    (Ok (Klass None))
    (λ m, Ok (Klass (Some m))).

(** An instance of the factory has no attribute of its own:
    [self.marshmallow] is found on its class. *)
Record instance : Type := Instance { class_ : klass }.

Definition __init__ (self : instance) : result unit :=
  match marshmallow (class_ self) with
  | None => Raise (ImportError "No module named 'marshmallow'")
  | Some _ => Ok ()
  end.

(** [MarshmallowConverter()]: allocate, then run [__init__]. *)
Definition new (cls : klass) : result instance :=
  let self := Instance cls in
  _ ← __init__ self; Ok self.

Module ResponseBodyConverter.
Record t : Type := __init__ { _schema : value }.

(** [return self._schema.load(response.json()).data].  Python looks up
    [load], then evaluates the argument, then calls. *)
Definition convert (T : classes) (self : t) (response : value) : result value :=
  load ← getmethod T (_schema self) "load";
  json ← getmethod T response "json";
  body ← json [];
  loaded ← load [body];
  getattr loaded "data".
End ResponseBodyConverter.

Module RequestBodyConverter.
Record t : Type := __init__ { _schema : value }.

(** [return self._schema.dump(value).data]. *)
Definition convert (T : classes) (self : t) (value_ : value) : result value :=
  dump ← getmethod T (_schema self) "dump";
  dumped ← dump [value_];
  getattr dumped "data".
End RequestBodyConverter.

(** [interfaces.Converter]: what the factory hands to the host, which
    only ever calls [convert] on it. *)
Inductive Converter : Type :=
| ResponseBody (c : ResponseBodyConverter.t)
| RequestBody (c : RequestBodyConverter.t).

Definition convert (T : classes) (c : Converter) (x : value) : result value :=
  match c with
  | ResponseBody c => ResponseBodyConverter.convert T c x
  | RequestBody c => RequestBodyConverter.convert T c x
  end.


(** The two nested classes as the callables [_make_converter] receives. *)
Definition ResponseBodyConverter_cls (schema : value) : Converter :=
  ResponseBody (ResponseBodyConverter.__init__ schema).
Definition RequestBodyConverter_cls (schema : value) : Converter :=
  RequestBody (RequestBodyConverter.__init__ schema).

Section Factory.
Context (T : classes).

(** The expression [cls.marshmallow.Schema]. *)
Definition marshmallow_Schema (cls : klass) : result string :=
  match marshmallow cls with
  | Some m => Ok (Schema m)
  | None => Raise (AttributeError "'NoneType' object has no attribute 'Schema'")
  end.

Definition _get_schema (cls : klass) (type_ : value) : result value :=
  is_schema_class ←
    (if isclass type_
     then base ← marshmallow_Schema cls; issubclass T type_ base
     else Ok false);
  if is_schema_class : bool then call T type_ []
  else
    base ← marshmallow_Schema cls;
    if isinstance T type_ base then Ok type_
    else Raise (ValueError "Expected marshmallow.Scheme subclass or instance.").

Definition _make_converter (self : instance)
    (converter_cls : value → Converter) (type_ : value)
    : result (option Converter) :=
  try_except_else (_get_schema (class_ self) type_) "ValueError"
    (Ok None)
    (λ schema, Ok (Some (converter_cls schema))).

Definition make_request_body_converter (self : instance) (type_ : value)
    (args : list value) (kwargs : list (string * value))
    : result (option Converter) :=
  _make_converter self RequestBodyConverter_cls type_.

Definition make_response_body_converter (self : instance) (type_ : value)
    (args : list value) (kwargs : list (string * value))
    : result (option Converter) :=
  _make_converter self ResponseBodyConverter_cls type_.

Definition make_string_converter (self : instance) (type_ : value)
    (args : list value) (kwargs : list (string * value))
    : result (option Converter) :=
  Ok None.
End Factory.

End MarshmallowConverter.

(** ** A concrete interpreter state

    The classes of a small client program, on which the properties below
    are exercised: the library's base [Schema], a [UserSchema] for a
    [User] record, a schema whose constructor insists on an argument, a
    schema whose constructor rejects its configuration, and the HTTP
    client's [Response]. *)

Module Example.

(** marshmallow 2 returns [MarshalResult(data, errors)] from [dump] and
    [UnmarshalResult(data, errors)] from [load]. *)
Definition MarshalResult (data : value) : value :=
  VObject "MarshalResult" [("data", data); ("errors", VDict [])].
Definition UnmarshalResult (data : value) : value :=
  VObject "UnmarshalResult" [("data", data); ("errors", VDict [])].

Definition ValidationError (msg : string) : exn :=
  Exn ["ValidationError"; "MarshmallowError"; "Exception"; "BaseException";
       "object"] msg.
Definition JSONDecodeError (msg : string) : exn :=
  Exn ["JSONDecodeError"; "ValueError"; "Exception"; "BaseException";
       "object"] msg.

Definition no_args (args : list value) : result (list (string * value)) :=
  match args with
  | [] => Ok []
  | _ => Raise (TypeError "__init__() takes 1 positional argument")
  end.

(** The base schema declares no field: it dumps and loads the empty
    mapping. *)
Definition Schema_class : class_def :=
  ClassDef [] no_args
    {[ "dump" := (λ _ _, Ok (MarshalResult (VDict []))) : method;
       "load" := (λ _ _, Ok (UnmarshalResult (VDict []))) : method ]}.

(** [UserSchema] dumps the attributes of an object and loads a mapping
    into a [User]; anything but a mapping is rejected. *)
Definition UserSchema_dump : method := λ _ args,
  match args with
  | [VObject _ attrs] => Ok (MarshalResult (VDict attrs))
  | _ => Ok (MarshalResult (VDict []))
  end.
Definition UserSchema_load : method := λ _ args,
  match args with
  | [VDict items] => Ok (UnmarshalResult (VObject "User" items))
  | _ => Raise (ValidationError "Invalid input type.")
  end.
Definition UserSchema_class : class_def :=
  ClassDef ["Schema"] no_args
    {[ "dump" := UserSchema_dump; "load" := UserSchema_load ]}.

(** [def __init__(self, context): ...] *)
Definition ContextSchema_class : class_def :=
  ClassDef ["Schema"]
    (λ args,
       match args with
       | [ctx] => Ok [("context", ctx)]
       | _ => Raise (TypeError
                "__init__() missing 1 required positional argument: 'context'")
       end)
    ∅.

(** A schema whose [__init__] raises [ValueError] itself. *)
Definition StrictSchema_class : class_def :=
  ClassDef ["Schema"]
    (λ _, Raise (ValueError "strict and lenient are mutually exclusive"))
    ∅.

(** [Response.json()] decodes the body, here kept decoded in [_body];
    a response without a body does not decode. *)
Definition Response_json : method := λ self _,
  match getattr self "_body" with
  | Ok body => Ok body
  | Raise _ => Raise (JSONDecodeError "Expecting value")
  end.
Definition Response_class : class_def :=
  ClassDef [] no_args {[ "json" := Response_json ]}.

Definition T : classes :=
  {[ "Schema" := Schema_class;
     "UserSchema" := UserSchema_class;
     "ContextSchema" := ContextSchema_class;
     "StrictSchema" := StrictSchema_class;
     "Response" := Response_class ]}.

Definition marshmallow : library := Library "Schema".

(** The factory class where marshmallow is installed, and where it is
    not. *)
Definition installed : MarshmallowConverter.klass :=
  MarshmallowConverter.Klass (Some marshmallow).
Definition missing : MarshmallowConverter.klass :=
  MarshmallowConverter.Klass None.

Definition factory : MarshmallowConverter.instance :=
  MarshmallowConverter.Instance installed.

Definition ann : value := VObject "User" [("id", VInt 1); ("name", VStr "Ann")].
Definition ann_json : value := VDict [("id", VInt 1); ("name", VStr "Ann")].

Definition response_with_json (body : value) : value :=
  VObject "Response" [("_body", body)].

Definition user_schema : value := VObject "UserSchema" [].

End Example.

(** The same client program on a schema library whose [dump] and [load]
    return the payload itself instead of a result object, as marshmallow
    does from version 3 on. *)

Module PlainResults.

Definition UserSchema_dump : method := λ _ args,
  match args with
  | [VObject _ attrs] => Ok (VDict attrs)
  | _ => Ok (VDict [])
  end.
Definition UserSchema_load : method := λ _ args,
  match args with
  | [VDict items] => Ok (VDict items)
  | _ => Raise (Example.ValidationError "Invalid input type.")
  end.
Definition UserSchema_class : class_def :=
  ClassDef ["Schema"] Example.no_args
    {[ "dump" := UserSchema_dump; "load" := UserSchema_load ]}.

Definition T : classes :=
  {[ "Schema" := ClassDef [] Example.no_args ∅;
     "UserSchema" := UserSchema_class;
     "Response" := Example.Response_class ]}.

End PlainResults.

(** The client program with one more schema, whose [__new__] does not
    build an instance:
    [class Answer(Schema): def __new__(cls): return 42]. *)

Module CustomNew.

Definition Answer_class : class_def :=
  MkClass ["Schema"] (Some (λ _, Ok (VInt 42))) Example.no_args ∅.

Definition T : classes := <["Answer" := Answer_class]> Example.T.

End CustomNew.

Import MarshmallowConverter.

(** ** Properties *)

Definition resolution_error : exn :=
  ValueError "Expected marshmallow.Scheme subclass or instance.".

(** [type_] is a class and a subclass of [base]: the guard of the first
    branch of [_get_schema], as the source evaluates it. *)
Definition schema_class (T : classes) (base : string) (type_ : value) : Prop :=
  isclass type_ = true ∧ issubclass T type_ base = Ok true.

(** An evaluation that raises, and one that raises an exception an
    [except cls:] clause would catch. *)
Definition raises {A : Type} (r : result A) : Prop := ∃ e, r = Raise e.
Definition raises_a {A : Type} (cls : string) (r : result A) : Prop :=
  ∃ e, r = Raise e ∧ exn_isinstance e cls = true.

(** The dichotomy of the documented contract of [make_*_body_converter]:
    [None] exactly when resolution fails, a converter around the
    resolved schema otherwise.  [failed] is the meaning given to
    "resolution fails". *)
Definition declines_exactly_when (failed : result value → Prop)
    (T : classes) (self : instance) (type_ : value) : Prop :=
  let resolved := _get_schema T (class_ self) type_ in
  let request := make_request_body_converter T self type_ [] [] in
  let response := make_response_body_converter T self type_ [] [] in
  (request = Ok None ↔ failed resolved) ∧
  (response = Ok None ↔ failed resolved) ∧
  (¬ failed resolved →
     ∃ schema, resolved = Ok schema ∧
       request = Ok (Some (RequestBodyConverter_cls schema)) ∧
       response = Ok (Some (ResponseBodyConverter_cls schema))).

(** The schema library's own operations on a schema [s], written with
    its methods and result objects only: [s.dump(v).data] is [raw],
    [s.load(raw).data] is [v]. *)
Definition dumps_to (T : classes) (s v raw : value) : Prop :=
  ∃ dump dumped,
    getmethod T s "dump" = Ok dump ∧ dump [v] = Ok dumped ∧
    getattr dumped "data" = Ok raw.
Definition loads_to (T : classes) (s raw v : value) : Prop :=
  ∃ load loaded,
    getmethod T s "load" = Ok load ∧ load [raw] = Ok loaded ∧
    getattr loaded "data" = Ok v.

(** [response.json()] is [body]. *)
Definition wraps (T : classes) (response body : value) : Prop :=
  ∃ json, getmethod T response "json" = Ok json ∧ json [] = Ok body.



Section Resolution.
Context (T : classes).

Lemma schema_class_inv base type_ :
  schema_class T base type_ ↔ ∃ c, type_ = VClass c ∧ base ∈ mro T c.
Proof.
  unfold schema_class. split.
  - intros [Hc Hs]. destruct type_; try discriminate Hc.
    simpl in Hs. injection Hs as Hs. apply bool_decide_eq_true in Hs. eauto.
  - intros (c & -> & Hin). split; [done|].
    simpl. by rewrite bool_decide_eq_true_2.
Qed.

Lemma schema_class_cases base type_ :
  schema_class T base type_ ∨ ¬ schema_class T base type_.
Proof.
  destruct type_ as [| | | | | |c|]; try (right; intros [H _]; discriminate H).
  rewrite schema_class_inv.
  destruct (decide (base ∈ mro T c)) as [Hin|Hn]; [left; eauto|right].
  intros (c' & [= <-] & Hin). done.
Qed.

Lemma get_schema_class cls m c :
  marshmallow cls = Some m → Schema m ∈ mro T c →
  _get_schema T cls (VClass c) = call T (VClass c) [].
Proof.
  intros Hm Hin. unfold _get_schema, marshmallow_Schema. rewrite Hm. simpl.
  by rewrite bool_decide_eq_true_2.
Qed.

Lemma get_schema_other cls m type_ :
  marshmallow cls = Some m → ¬ schema_class T (Schema m) type_ →
  _get_schema T cls type_ =
    if isinstance T type_ (Schema m) then Ok type_ else Raise resolution_error.
Proof.
  intros Hm Hn. unfold _get_schema, marshmallow_Schema. rewrite Hm.
  destruct type_; simpl; try reflexivity.
  rewrite bool_decide_eq_false_2; [reflexivity|].
  intros Hin. apply Hn, schema_class_inv. eauto.
Qed.

(** Without the library, the expression [cls.marshmallow.Schema] is what
    fails, whatever [type_] is. *)
Lemma get_schema_missing cls type_ :
  marshmallow cls = None →
  _get_schema T cls type_ =
    Raise (AttributeError "'NoneType' object has no attribute 'Schema'").
Proof.
  intros Hm. unfold _get_schema, marshmallow_Schema. rewrite Hm.
  by destruct type_.
Qed.




(** C1. Schema resolution is a three-way case split.  With the schema
    library present: when [type_] is a class and a subclass of the base
    schema type, [_get_schema] is the zero-argument call of [type_];
    otherwise, when [type_] is an instance of the base schema type, it
    returns [type_] itself; in every other case it raises the
    resolution error, a [ValueError]. *)
Theorem get_schema_three_way cls m type_ :
  marshmallow cls = Some m →
  (schema_class T (Schema m) type_ →
     _get_schema T cls type_ = call T type_ []) ∧
  (¬ schema_class T (Schema m) type_ →
     isinstance T type_ (Schema m) = true →
     _get_schema T cls type_ = Ok type_) ∧
  (¬ schema_class T (Schema m) type_ →
     isinstance T type_ (Schema m) = false →
     _get_schema T cls type_ = Raise resolution_error).
Proof.
  intros Hm. repeat split.
  - intros (c & -> & Hin)%schema_class_inv. by eapply get_schema_class.
  - intros Hn Hi. by rewrite (get_schema_other _ _ _ Hm Hn), Hi.
  - intros Hn Hi. by rewrite (get_schema_other _ _ _ Hm Hn), Hi.
Qed.
End Resolution.

Lemma get_schema_three_way_witness :
  marshmallow Example.installed = Some Example.marshmallow ∧
  _get_schema Example.T Example.installed (VClass "UserSchema")
    = Ok (VObject "UserSchema" []) ∧
  _get_schema Example.T Example.installed (VObject "UserSchema" [])
    = Ok (VObject "UserSchema" []) ∧
  _get_schema Example.T Example.installed (VClass "int")
    = Raise resolution_error.
Proof.
  pose (thm := λ type_,
    get_schema_three_way Example.T Example.installed Example.marshmallow
      type_ eq_refl).
  split; [reflexivity|]. split; [|split].
  - destruct (thm (VClass "UserSchema")) as (H & _ & _).
    rewrite H; [reflexivity|]. split; reflexivity.
  - destruct (thm (VObject "UserSchema" [])) as (_ & H & _).
    apply H; [|reflexivity]. intros [Hc _]. discriminate Hc.
  - destruct (thm (VClass "int")) as (_ & _ & H).
    apply H; [|reflexivity]. intros [_ Hs]. discriminate Hs.
Defined.

(** ** The factory methods *)

Section Factory.
Context (T : classes).

Lemma make_converter_ok self converter_cls type_ schema :
  _get_schema T (class_ self) type_ = Ok schema →
  _make_converter T self converter_cls type_ = Ok (Some (converter_cls schema)).
Proof. intros H. unfold _make_converter. by rewrite H. Qed.

Lemma make_converter_caught self converter_cls type_ e :
  _get_schema T (class_ self) type_ = Raise e →
  exn_isinstance e "ValueError" = true →
  _make_converter T self converter_cls type_ = Ok None.
Proof. intros H He. unfold _make_converter. rewrite H. simpl. by rewrite He. Qed.

Lemma make_converter_uncaught self converter_cls type_ e :
  _get_schema T (class_ self) type_ = Raise e →
  exn_isinstance e "ValueError" = false →
  _make_converter T self converter_cls type_ = Raise e.
Proof. intros H He. unfold _make_converter. rewrite H. simpl. by rewrite He. Qed.

Lemma make_converter_none_iff self converter_cls type_ :
  _make_converter T self converter_cls type_ = Ok None ↔
  ∃ e, _get_schema T (class_ self) type_ = Raise e ∧
       exn_isinstance e "ValueError" = true.
Proof.
  unfold _make_converter.
  destruct (_get_schema T (class_ self) type_) as [s|e]; simpl.
  - split; [discriminate|]. intros (e & He & _). discriminate He.
  - destruct (exn_isinstance e "ValueError") eqn:Hv.
    + split; [eauto|done].
    + split; [discriminate|]. intros (e' & [= <-] & He'). congruence.
Qed.

End Factory.

Section MakeConverters.
Context (T : classes).

(** C2, amended. [make_request_body_converter] returns [None] exactly when
    schema resolution raises a [ValueError]; when resolution returns a
    schema it returns a [RequestBodyConverter] around it; any other
    exception of resolution comes out of the method.
    [make_response_body_converter] does the same with a
    [ResponseBodyConverter].  For a type that is neither a schema
    subclass nor a schema instance both return [None]. *)
Theorem make_body_converter_outcomes self type_ args kwargs :
  let resolved := _get_schema T (class_ self) type_ in
  let request := make_request_body_converter T self type_ args kwargs in
  let response := make_response_body_converter T self type_ args kwargs in
  (request = Ok None ↔ raises_a "ValueError" resolved) ∧
  (response = Ok None ↔ raises_a "ValueError" resolved) ∧
  (∀ schema, resolved = Ok schema →
     request = Ok (Some (RequestBodyConverter_cls schema)) ∧
     response = Ok (Some (ResponseBodyConverter_cls schema))) ∧
  (∀ e, resolved = Raise e → exn_isinstance e "ValueError" = false →
     request = Raise e ∧ response = Raise e) ∧
  (∀ m, marshmallow (class_ self) = Some m →
     ¬ schema_class T (Schema m) type_ →
     isinstance T type_ (Schema m) = false →
     request = Ok None ∧ response = Ok None).
Proof.
  simpl. unfold make_request_body_converter, make_response_body_converter.
  split; [apply make_converter_none_iff|].
  split; [apply make_converter_none_iff|].
  split; [|split].
  - intros schema Hs. split; by apply make_converter_ok.
  - intros e He Hv. split; by apply make_converter_uncaught.
  - intros m Hm Hn Hi.
    assert (_get_schema T (class_ self) type_ = Raise resolution_error) as Hr.
    { by rewrite (get_schema_other T _ m type_ Hm Hn), Hi. }
    split; by eapply make_converter_caught.
Qed.


(** C9. [make_string_converter] returns [None], whatever the type and
    the extra positional and keyword arguments. *)
Theorem make_string_converter_declines self type_ args kwargs :
  make_string_converter self type_ args kwargs = Ok None.
Proof. reflexivity. Qed.

(** C10. Only [ValueError] is turned into a [None]: when [type_] is a
    schema subclass whose zero-argument instantiation raises an
    exception that is not a [ValueError], both [make_*_body_converter]
    methods raise that exception. *)
Theorem make_converter_propagates self m type_ e args kwargs :
  marshmallow (class_ self) = Some m →
  schema_class T (Schema m) type_ →
  call T type_ [] = Raise e →
  exn_isinstance e "ValueError" = false →
  make_request_body_converter T self type_ args kwargs = Raise e ∧
  make_response_body_converter T self type_ args kwargs = Raise e.
Proof.
  intros Hm Hc Hcall Hv.
  apply schema_class_inv in Hc as (c & -> & Hin).
  pose proof (get_schema_class T _ _ _ Hm Hin) as Hs. rewrite Hcall in Hs.
  split; by apply make_converter_uncaught.
Qed.
End MakeConverters.

(** C2 as worded fails on a schema subclass whose constructor needs an
    argument: resolution fails with the constructor's [TypeError], and
    the two methods raise it; they return neither [None] nor a
    converter.  This refutes the dichotomy whether "resolution fails"
    means any exception or the resolution error alone. *)
Lemma make_body_converter_counterexample :
  _get_schema Example.T (class_ Example.factory) (VClass "ContextSchema")
    = Raise (TypeError
        "__init__() missing 1 required positional argument: 'context'") ∧
  make_request_body_converter Example.T Example.factory
      (VClass "ContextSchema") [] []
    = Raise (TypeError
        "__init__() missing 1 required positional argument: 'context'") ∧
  make_response_body_converter Example.T Example.factory
      (VClass "ContextSchema") [] []
    = Raise (TypeError
        "__init__() missing 1 required positional argument: 'context'") ∧
  ¬ declines_exactly_when raises
      Example.T Example.factory (VClass "ContextSchema") ∧
  ¬ declines_exactly_when (raises_a "ValueError")
      Example.T Example.factory (VClass "ContextSchema").
Proof.
  repeat split; try reflexivity.
  - intros ([_ Hnone] & _).
    assert (raises (_get_schema Example.T (class_ Example.factory)
                      (VClass "ContextSchema"))) as Hr by (eexists; reflexivity).
    specialize (Hnone Hr). discriminate Hnone.
  - intros (_ & _ & Hconv).
    destruct Hconv as (schema & Hs & _); [|discriminate Hs].
    intros (e & [= <-] & He). discriminate He.
Qed.



Lemma make_converter_propagates_witness :
  marshmallow (class_ Example.factory) = Some Example.marshmallow ∧
  schema_class Example.T "Schema" (VClass "ContextSchema") ∧
  call Example.T (VClass "ContextSchema") []
    = Raise (TypeError
        "__init__() missing 1 required positional argument: 'context'") ∧
  make_request_body_converter Example.T Example.factory
      (VClass "ContextSchema") [] [("many", VBool true)]
    = Raise (TypeError
        "__init__() missing 1 required positional argument: 'context'") ∧
  make_response_body_converter Example.T Example.factory
      (VClass "ContextSchema") [] [("many", VBool true)]
    = Raise (TypeError
        "__init__() missing 1 required positional argument: 'context'").
Proof.
  split; [reflexivity|]. split; [split; reflexivity|]. split; [reflexivity|].
  apply (make_converter_propagates Example.T Example.factory
           Example.marshmallow (VClass "ContextSchema")).
  - reflexivity.
  - split; reflexivity.
  - reflexivity.
  - reflexivity.
Defined.

(** ** The converters *)

Section Converters.
Context (T : classes).

(** C3. [RequestBodyConverter(s).convert(v)] is the [data] attribute of
    what [s.dump(v)] returns, and an exception raised by [s.dump(v)]
    comes out of [convert] as it is. *)
Theorem request_convert_delegates s dump v :
  getmethod T s "dump" = Ok dump →
  (∀ dumped, dump [v] = Ok dumped →
     RequestBodyConverter.convert T (RequestBodyConverter.__init__ s) v
       = getattr dumped "data") ∧
  (∀ e, dump [v] = Raise e →
     RequestBodyConverter.convert T (RequestBodyConverter.__init__ s) v
       = Raise e).
Proof.
  intros Hd. unfold RequestBodyConverter.convert. simpl. rewrite Hd. simpl.
  split; intros ? Hv; by rewrite Hv.
Qed.

(** C4. [ResponseBodyConverter(s).convert(r)] calls [r.json()] first,
    passes the decoded body to [s.load], and returns the [data]
    attribute of what [load] returns; an exception raised by [r.json()]
    or by [s.load] comes out of [convert] as it is. *)
Theorem response_convert_delegates s load r json :
  getmethod T s "load" = Ok load →
  getmethod T r "json" = Ok json →
  (∀ body loaded, json [] = Ok body → load [body] = Ok loaded →
     ResponseBodyConverter.convert T (ResponseBodyConverter.__init__ s) r
       = getattr loaded "data") ∧
  (∀ e, json [] = Raise e →
     ResponseBodyConverter.convert T (ResponseBodyConverter.__init__ s) r
       = Raise e) ∧
  (∀ body e, json [] = Ok body → load [body] = Raise e →
     ResponseBodyConverter.convert T (ResponseBodyConverter.__init__ s) r
       = Raise e).
Proof.
  intros Hl Hj. unfold ResponseBodyConverter.convert. simpl.
  rewrite Hl, Hj. simpl. repeat split.
  - intros body loaded Hb Hloaded. by rewrite Hb; simpl; rewrite Hloaded.
  - intros e He. by rewrite He.
  - intros body e Hb He. by rewrite Hb; simpl; rewrite He.
Qed.

(** C5. Round trip.  When the schema [s] dumps [obj] to [raw] and loads
    [raw] back to [obj], the request converter of [s] turns [obj] into
    [raw], and the response converter of [s], given a response whose
    decoded body is [raw], returns [obj]. *)
Theorem convert_round_trip s obj raw response :
  dumps_to T s obj raw →
  loads_to T s raw obj →
  wraps T response raw →
  RequestBodyConverter.convert T (RequestBodyConverter.__init__ s) obj
    = Ok raw ∧
  ResponseBodyConverter.convert T (ResponseBodyConverter.__init__ s) response
    = Ok obj.
Proof.
  intros (dump & dumped & Hd & Hdumped & Hraw)
         (load & loaded & Hl & Hloaded & Hobj)
         (json & Hj & Hbody).
  split.
  - unfold RequestBodyConverter.convert. simpl.
    rewrite Hd; simpl. by rewrite Hdumped.
  - unfold ResponseBodyConverter.convert. simpl.
    rewrite Hl, Hj; simpl. rewrite Hbody; simpl. by rewrite Hloaded.
Qed.

End Converters.


(** ** Construction *)

(** C6. Where [import marshmallow] fails, constructing the factory
    raises [ImportError]; where it succeeds, construction succeeds.
    Construction fails exactly when the class holds no library.  The
    other methods do not test for the library: on a factory whose class
    holds none, the body converter methods fail on the attribute read
    [marshmallow.Schema] and [make_string_converter] returns [None];
    none of them raises the construction failure. *)
Theorem availability_checked_at_construction :
  (∀ e, exn_isinstance e "ImportError" = true →
     (cls ← class_body (Raise e); new cls)
       = Raise (ImportError "No module named 'marshmallow'")) ∧
  (∀ m, (cls ← class_body (Ok m); new cls) = Ok (Instance (Klass (Some m)))) ∧
  (∀ cls, new cls = Raise (ImportError "No module named 'marshmallow'")
          ↔ marshmallow cls = None) ∧
  (∀ T self type_ args kwargs, marshmallow (class_ self) = None →
     make_request_body_converter T self type_ args kwargs
       = Raise (AttributeError "'NoneType' object has no attribute 'Schema'") ∧
     make_response_body_converter T self type_ args kwargs
       = Raise (AttributeError "'NoneType' object has no attribute 'Schema'") ∧
     make_string_converter self type_ args kwargs = Ok None).
Proof.
  split; [|split; [|split]].
  - intros e He. unfold class_body, try_except_else. by rewrite He.
  - done.
  - intros [[m|]]; unfold new, __init__; simpl; split; done.
  - intros T self type_ args kwargs Hm.
    unfold make_request_body_converter, make_response_body_converter,
      _make_converter.
    rewrite (get_schema_missing T _ type_ Hm). done.
Qed.

(** ** The properties on the concrete interpreter state *)

Lemma request_convert_delegates_witness :
  getmethod Example.T Example.user_schema "dump"
    = Ok (Example.UserSchema_dump Example.user_schema) ∧
  RequestBodyConverter.convert Example.T
      (RequestBodyConverter.__init__ Example.user_schema) Example.ann
    = Ok Example.ann_json.
Proof.
  split; [reflexivity|].
  destruct (request_convert_delegates Example.T Example.user_schema
              (Example.UserSchema_dump Example.user_schema) Example.ann
              eq_refl) as [Hdata _].
  rewrite (Hdata _ eq_refl). reflexivity.
Defined.

Lemma response_convert_delegates_witness :
  getmethod Example.T Example.user_schema "load"
    = Ok (Example.UserSchema_load Example.user_schema) ∧
  getmethod Example.T (Example.response_with_json Example.ann_json) "json"
    = Ok (Example.Response_json (Example.response_with_json Example.ann_json)) ∧
  ResponseBodyConverter.convert Example.T
      (ResponseBodyConverter.__init__ Example.user_schema)
      (Example.response_with_json Example.ann_json)
    = Ok Example.ann.
Proof.
  split; [reflexivity|]. split; [reflexivity|].
  destruct (response_convert_delegates Example.T Example.user_schema
              (Example.UserSchema_load Example.user_schema)
              (Example.response_with_json Example.ann_json)
              (Example.Response_json
                 (Example.response_with_json Example.ann_json))
              eq_refl eq_refl) as [Hdata _].
  rewrite (Hdata Example.ann_json _ eq_refl eq_refl). reflexivity.
Defined.

Lemma convert_round_trip_witness :
  dumps_to Example.T Example.user_schema Example.ann Example.ann_json ∧
  loads_to Example.T Example.user_schema Example.ann_json Example.ann ∧
  wraps Example.T (Example.response_with_json Example.ann_json)
    Example.ann_json ∧
  RequestBodyConverter.convert Example.T
      (RequestBodyConverter.__init__ Example.user_schema) Example.ann
    = Ok Example.ann_json ∧
  ResponseBodyConverter.convert Example.T
      (ResponseBodyConverter.__init__ Example.user_schema)
      (Example.response_with_json Example.ann_json)
    = Ok Example.ann.
Proof.
  assert (dumps_to Example.T Example.user_schema Example.ann Example.ann_json)
    as Hd by (do 2 eexists; repeat split; reflexivity).
  assert (loads_to Example.T Example.user_schema Example.ann_json Example.ann)
    as Hl by (do 2 eexists; repeat split; reflexivity).
  assert (wraps Example.T (Example.response_with_json Example.ann_json)
            Example.ann_json)
    as Hw by (eexists; split; reflexivity).
  split; [exact Hd|]. split; [exact Hl|]. split; [exact Hw|].
  exact (convert_round_trip Example.T _ _ _ _ Hd Hl Hw).
Defined.


(** A [ValueError] raised by the schema's own constructor is
    indistinguishable from the resolution error: the type is declined. *)
Lemma strict_schema_declined :
  _get_schema Example.T Example.installed (VClass "StrictSchema")
    = Raise (ValueError "strict and lenient are mutually exclusive") ∧
  make_request_body_converter Example.T Example.factory
      (VClass "StrictSchema") [] [] = Ok None ∧
  make_response_body_converter Example.T Example.factory
      (VClass "StrictSchema") [] [] = Ok None.
Proof. repeat split; reflexivity. Qed.

(** An unrelated class and a primitive value are declined; a payload
    that is not a mapping is rejected by the schema and the rejection
    reaches the caller of [convert]. *)
Lemma non_schema_declined :
  make_request_body_converter Example.T Example.factory (VClass "int") [] []
    = Ok None ∧
  make_response_body_converter Example.T Example.factory (VInt 3) [] []
    = Ok None.
Proof. split; reflexivity. Qed.

Lemma validation_error_reaches_caller :
  ResponseBodyConverter.convert Example.T
      (ResponseBodyConverter.__init__ Example.user_schema)
      (Example.response_with_json (VInt 3))
    = Raise (Example.ValidationError "Invalid input type.").
Proof. reflexivity. Qed.

(** ** Further properties of the source *)

Section Further.
Context (T : classes).

(** X1. [except ValueError] cannot tell the resolution error from a
    [ValueError] of the schema's constructor: a schema subclass whose
    zero-argument instantiation raises a [ValueError], or an exception
    deriving from it, is declined with [None] by both methods; the
    constructor's error is lost. *)
Theorem constructor_value_error_declined self m type_ e args kwargs :
  marshmallow (class_ self) = Some m →
  schema_class T (Schema m) type_ →
  call T type_ [] = Raise e →
  exn_isinstance e "ValueError" = true →
  make_request_body_converter T self type_ args kwargs = Ok None ∧
  make_response_body_converter T self type_ args kwargs = Ok None.
Proof.
  intros Hm (c & -> & Hin)%schema_class_inv Hcall Hv.
  pose proof (get_schema_class T _ _ _ Hm Hin) as Hs. rewrite Hcall in Hs.
  split; by eapply make_converter_caught.
Qed.


(** X3. The two body-converter methods resolve alike and ignore their
    extra arguments: one declines exactly when the other does, one raises
    an exception exactly when the other raises it, one returns a
    converter around a schema exactly when the other returns its own
    converter around that schema; and neither returns a converter of the
    other direction. *)
Theorem body_converters_agree self type_ args kwargs args' kwargs' :
  let request := make_request_body_converter T self type_ args kwargs in
  let response := make_response_body_converter T self type_ args' kwargs' in
  (request = Ok None ↔ response = Ok None) ∧
  (∀ e, request = Raise e ↔ response = Raise e) ∧
  (∀ schema, request = Ok (Some (RequestBodyConverter_cls schema)) ↔
             response = Ok (Some (ResponseBodyConverter_cls schema))) ∧
  (∀ c, request ≠ Ok (Some (ResponseBody c))) ∧
  (∀ c, response ≠ Ok (Some (RequestBody c))).
Proof.
  simpl. unfold make_request_body_converter, make_response_body_converter,
    _make_converter, try_except_else.
  destruct (_get_schema T (class_ self) type_) as [s|e].
  - repeat split; try discriminate.
    + intros [= ->]. done.
    + intros [= ->]. done.
  - destruct (exn_isinstance e "ValueError"); repeat split; try done.
Qed.

(** X5. A constructed factory raises nothing of its own from the
    body-converter methods: an exception that comes out of one of them
    was raised by the zero-argument instantiation of a schema subclass,
    and is not a [ValueError]. *)
Theorem body_converter_errors_come_from_instantiation
    cls self type_ e args kwargs :
  new cls = Ok self →
  make_request_body_converter T self type_ args kwargs = Raise e ∨
  make_response_body_converter T self type_ args kwargs = Raise e →
  ∃ m, marshmallow cls = Some m ∧
       schema_class T (Schema m) type_ ∧
       call T type_ [] = Raise e ∧
       exn_isinstance e "ValueError" = false.
Proof.
  intros Hnew Hraise.
  assert (∃ m, marshmallow cls = Some m ∧ class_ self = cls) as (m & Hm & Hcls).
  { unfold new, MarshmallowConverter.__init__ in Hnew. simpl in Hnew.
    destruct (marshmallow cls) as [m|]; [|discriminate Hnew].
    simpl in Hnew. injection Hnew as <-. eauto. }
  assert (_get_schema T cls type_ = Raise e ∧
          exn_isinstance e "ValueError" = false) as [Hs Hv].
  { unfold make_request_body_converter, make_response_body_converter,
      _make_converter, try_except_else in Hraise. rewrite Hcls in Hraise.
    destruct (_get_schema T cls type_) as [s|e']; [by destruct Hraise|].
    destruct (exn_isinstance e' "ValueError") eqn:Hv; [by destruct Hraise|].
    by destruct Hraise as [[= <-]|[= <-]]. }
  exists m. split; [done|].
  destruct (schema_class_cases T (Schema m) type_) as [Hc|Hn].
  - pose proof Hc as (c & -> & Hin)%schema_class_inv.
    rewrite (get_schema_class T _ _ _ Hm Hin) in Hs. done.
  - rewrite (get_schema_other T cls m type_ Hm Hn) in Hs.
    destruct (isinstance T type_ (Schema m)); [discriminate Hs|].
    injection Hs as <-. discriminate Hv.
Qed.
End Further.

Lemma new_inv cls self :
  new cls = Ok self → self = Instance cls ∧ ∃ m, marshmallow cls = Some m.
Proof.
  unfold new, MarshmallowConverter.__init__. simpl.
  destruct (marshmallow cls) as [m|]; [|discriminate].
  simpl. intros [= <-]. eauto.
Qed.

Section EndToEnd.
Context (T : classes).

(** X4. Round trip through the factory.  On a constructed factory, for a
    type that resolves to a schema which dumps [obj] to [raw] and loads
    [raw] back to [obj], both body-converter methods return a converter;
    the request converter turns [obj] into [raw], and the response
    converter, given a response whose decoded body is [raw], returns
    [obj]. *)
Theorem factory_round_trip
    cls self type_ schema obj raw response args kwargs :
  new cls = Ok self →
  _get_schema T cls type_ = Ok schema →
  dumps_to T schema obj raw →
  loads_to T schema raw obj →
  wraps T response raw →
  ∃ request_converter response_converter,
    make_request_body_converter T self type_ args kwargs
      = Ok (Some request_converter) ∧
    make_response_body_converter T self type_ args kwargs
      = Ok (Some response_converter) ∧
    convert T request_converter obj = Ok raw ∧
    convert T response_converter response = Ok obj.
Proof.
  intros [-> _]%new_inv Hs
         (dump & dumped & Hd & Hdumped & Hraw)
         (load & loaded & Hl & Hloaded & Hobj)
         (json & Hj & Hbody).
  exists (RequestBodyConverter_cls schema), (ResponseBodyConverter_cls schema).
  split; [by apply make_converter_ok|]. split; [by apply make_converter_ok|].
  split; simpl.
  - unfold RequestBodyConverter.convert. simpl.
    rewrite Hd; simpl. by rewrite Hdumped.
  - unfold ResponseBodyConverter.convert. simpl.
    rewrite Hl, Hj; simpl. rewrite Hbody; simpl. by rewrite Hloaded.
Qed.

(** X7. The converters read the [data] attribute of what the schema
    returns.  When [dump], or [load], returns a value that is not an
    object with attributes (a plain mapping, as the schema library does
    from its version 3 on), [convert] raises [AttributeError] for
    [data] instead of returning the payload. *)
Theorem convert_needs_result_object s dump load v response json body payload :
  (∀ c attrs, payload ≠ VObject c attrs) →
  (getmethod T s "dump" = Ok dump → dump [v] = Ok payload →
     RequestBodyConverter.convert T (RequestBodyConverter.__init__ s) v
       = Raise (no_attribute payload "data")) ∧
  (getmethod T s "load" = Ok load → getmethod T response "json" = Ok json →
     json [] = Ok body → load [body] = Ok payload →
     ResponseBodyConverter.convert T (ResponseBodyConverter.__init__ s) response
       = Raise (no_attribute payload "data")).
Proof.
  intros Hplain.
  assert (getattr payload "data" = Raise (no_attribute payload "data")) as Hg.
  { destruct payload; try reflexivity. by edestruct Hplain. }
  split.
  - intros Hd Hdumped. unfold RequestBodyConverter.convert. simpl.
    rewrite Hd; simpl. by rewrite Hdumped.
  - intros Hl Hj Hbody Hloaded. unfold ResponseBodyConverter.convert. simpl.
    rewrite Hl, Hj; simpl. rewrite Hbody; simpl. by rewrite Hloaded.
Qed.
End EndToEnd.

(** X6. From the import to the factory object.  A factory object exists
    exactly when [import marshmallow] succeeded, and its class then holds
    the imported module.  An import that fails with an [ImportError]
    still defines the class, with no library; an import that fails with
    anything else fails the class body itself, with that exception. *)
Theorem construction_outcomes (import_marshmallow : result library) :
  let built := cls ← class_body import_marshmallow; new cls in
  (∀ self, built = Ok self ↔
     ∃ m, import_marshmallow = Ok m ∧ self = Instance (Klass (Some m))) ∧
  (∀ e, import_marshmallow = Raise e → exn_isinstance e "ImportError" = true →
     class_body import_marshmallow = Ok (Klass None)) ∧
  (∀ e, import_marshmallow = Raise e → exn_isinstance e "ImportError" = false →
     class_body import_marshmallow = Raise e ∧ built = Raise e).
Proof.
  simpl. unfold class_body, try_except_else.
  destruct import_marshmallow as [m|e]; simpl.
  - split; [|split; intros ? [=]].
    intros self. split.
    + intros [= <-]. eauto.
    + intros (m' & [= <-] & ->). done.
  - destruct (exn_isinstance e "ImportError") eqn:He; simpl.
    + split; [|split].
      * intros self. split; [discriminate|]. intros (m & Hm & _). discriminate Hm.
      * done.
      * intros e' [= <-] He'. congruence.
    + split; [|split].
      * intros self. split; [discriminate|]. intros (m & Hm & _). discriminate Hm.
      * intros e' [= <-] He'. congruence.
      * intros e' [= <-] _. done.
Qed.

(** ** The further properties on the concrete interpreter states *)

Lemma constructor_value_error_declined_witness :
  call Example.T (VClass "StrictSchema") []
    = Raise (ValueError "strict and lenient are mutually exclusive") ∧
  make_request_body_converter Example.T Example.factory
      (VClass "StrictSchema") [] [] = Ok None ∧
  make_response_body_converter Example.T Example.factory
      (VClass "StrictSchema") [] [] = Ok None.
Proof.
  split; [reflexivity|].
  apply (constructor_value_error_declined Example.T Example.factory
           Example.marshmallow (VClass "StrictSchema")
           (ValueError "strict and lenient are mutually exclusive")).
  - reflexivity.
  - split; reflexivity.
  - reflexivity.
  - reflexivity.
Defined.


Lemma body_converter_errors_come_from_instantiation_witness :
  new Example.installed = Ok Example.factory ∧
  ∃ m, marshmallow Example.installed = Some m ∧
       schema_class Example.T (Schema m) (VClass "ContextSchema") ∧
       call Example.T (VClass "ContextSchema") []
         = Raise (TypeError
             "__init__() missing 1 required positional argument: 'context'") ∧
       exn_isinstance
         (TypeError
            "__init__() missing 1 required positional argument: 'context'")
         "ValueError" = false.
Proof.
  split; [reflexivity|].
  apply (body_converter_errors_come_from_instantiation Example.T
           Example.installed Example.factory (VClass "ContextSchema") _ [] []).
  - reflexivity.
  - left. reflexivity.
Defined.

Lemma factory_round_trip_witness :
  new Example.installed = Ok Example.factory ∧
  _get_schema Example.T Example.installed (VClass "UserSchema")
    = Ok Example.user_schema ∧
  ∃ request_converter response_converter,
    make_request_body_converter Example.T Example.factory
        (VClass "UserSchema") [] [] = Ok (Some request_converter) ∧
    make_response_body_converter Example.T Example.factory
        (VClass "UserSchema") [] [] = Ok (Some response_converter) ∧
    convert Example.T request_converter Example.ann = Ok Example.ann_json ∧
    convert Example.T response_converter
        (Example.response_with_json Example.ann_json) = Ok Example.ann.
Proof.
  split; [reflexivity|]. split; [reflexivity|].
  apply (factory_round_trip Example.T Example.installed Example.factory
           (VClass "UserSchema") Example.user_schema).
  - reflexivity.
  - reflexivity.
  - do 2 eexists. repeat split; reflexivity.
  - do 2 eexists. repeat split; reflexivity.
  - eexists. split; reflexivity.
Defined.

Lemma convert_needs_result_object_witness :
  RequestBodyConverter.convert PlainResults.T
      (RequestBodyConverter.__init__ Example.user_schema) Example.ann
    = Raise (AttributeError "'dict' object has no attribute 'data'") ∧
  ResponseBodyConverter.convert PlainResults.T
      (ResponseBodyConverter.__init__ Example.user_schema)
      (Example.response_with_json Example.ann_json)
    = Raise (AttributeError "'dict' object has no attribute 'data'").
Proof.
  destruct (convert_needs_result_object PlainResults.T Example.user_schema
              (PlainResults.UserSchema_dump Example.user_schema)
              (PlainResults.UserSchema_load Example.user_schema)
              Example.ann
              (Example.response_with_json Example.ann_json)
              (Example.Response_json
                 (Example.response_with_json Example.ann_json))
              Example.ann_json Example.ann_json)
    as [Hdump Hload].
  - intros c attrs H. discriminate H.
  - split; [apply Hdump|apply Hload]; reflexivity.
Defined.
